(** * The users CRUD service of [app/main.py]

    A shallow embedding of the five route handlers of [app/main.py], of the
    custom handler for request-validation errors, and of the parts of the
    web framework, the schema library and the ORM session that the handlers
    call.  The handlers are Python coroutines that mutate a session and may
    raise; they are embedded in a state-and-exception monad over the session.

    What is taken from the libraries the file imports:
    - [async_sessionmaker] (line 6) only exists in SQLAlchemy 2.x, where
      [Session.execute] accepts executable objects only: a bare Python [str]
      is refused with [ArgumentError] before anything is sent to the
      database, whereas [text("...")] is executed.  [get_users] and
      [delete_user] wrap their SQL in [text]; [get_user] and [update_user]
      pass an f-string.
    - [result.fetchone()] returns a [Row], a read-only named tuple that is
      not a mapped instance: assigning one of its attributes raises
      [AttributeError], and [session.add] of it raises
      [UnmappedInstanceError].
    - [name: str] accepts every JSON string (the empty one too) and nothing
      else; [EmailStr] accepts the strings its syntax check accepts and
      returns them normalised.  The syntax check itself and the parsing of a
      path segment as [int] are parameters of the development.
    - the [users] table: [id] is a primary key filled from a sequence (a
      sequence value taken by an INSERT that then meets a conflict is not
      given back), [email] is unique; [id] is a 32-bit integer column and a
      text value cannot hold a NUL character, so an INSERT at the end of the
      sequence or with such a text is refused.  The order of the list of
      rows stands for the order in which a SELECT without ORDER BY returns
      them.
    - a request body is what [json.loads] makes of it: a number with a
      fraction or an exponent is a float, which may be infinite (1e999) or
      NaN; [JSONResponse] renders its content with [allow_nan=False] and
      raises [ValueError] on such a float.
    - closing the session of a request sends ROLLBACK when a transaction is
      still open.
    - the middleware: [add_middleware] puts a middleware in front of those
      added before it, so the trusted-host check (line 70) runs outside
      [LoggingMiddleware] (line 59); [call_next] raises what the inner
      application raised; the trusted-host check compares the [Host] header
      up to its first colon with each pattern.  The log is the list of
      messages handed to [logging.info]. *)

From Stdlib Require Import ZArith List String Ascii Bool Lia DecimalString.
From Stdlib Require Import SpecFloat Permutation.
Import ListNotations.
Local Open Scope string_scope.
Local Open Scope list_scope.
Local Open Scope Z_scope.

(** ** JSON values: request bodies and response contents *)

#[local] Set Warnings "-register-all".

Inductive json :=
| JNull
| JBool (b : bool)
| JInt (z : Z)
| JFloat (x : spec_float)
| JStr (s : string)
| JList (l : list json)
| JDict (d : list (string * json)).

(** What [json.dumps(content, allow_nan=False)] accepts: every float in the
    value is finite. *)
Fixpoint json_compliant (v : json) : bool :=
  match v with
  | JFloat (S754_infinity _) | JFloat S754_nan => false
  | JList l => forallb json_compliant l
  | JDict d => forallb (fun kv => let '(_, x) := kv in json_compliant x) d
  | _ => true
  end.

Fixpoint dict_get (k : string) (d : list (string * json)) : option json :=
  match d with
  | [] => None
  | (k', v) :: d' => if String.eqb k k' then Some v else dict_get k d'
  end.

(** ** Rows, mapped instances, schemas *)

(** A row of the [users] table (class [User], lines 28-33); also what
    [fetchone] and [fetchall] hand back for [SELECT *]. *)
Record User := mkUser { id : Z; name : string; email : string }.

Definition Row := User.

(** A mapped [User] object held by a session: [inst_id] is [None] until the
    object has been flushed. *)
Record Instance := mkInstance
  { inst_id : option Z; inst_name : string; inst_email : string }.

(** [UserCreate] (lines 36-38), after validation. *)
Record UserCreate := mkUserCreate { uc_name : string; uc_email : string }.

(** One entry of [exc.errors()]: the error type, the location of the
    offending value and the value.  The entries of the code also carry a
    message and, for some types, a context; both are texts and are left
    out. *)
Record ErrorDetails := mkError
  { err_type : string; err_loc : list string; err_input : json }.

Definition error_json (e : ErrorDetails) : json :=
  JDict [("type", JStr (err_type e));
         ("loc", JList (map JStr (err_loc e)));
         ("input", err_input e)].

Record Response := mkResponse { status_code : Z; content : json }.

(** ** Exceptions *)

Record ValidationExc := mkValidationExc
  { errors : list ErrorDetails; body : json }.

Inductive exn :=
| HTTPException (status : Z) (detail : string)
| RequestValidationError (exc : ValidationExc)
| ArgumentError
| ValueError
| DBAPIError
| AttributeError
| UnmappedInstanceError
| InvalidRequestError
| IntegrityError.

(** ** The database and the session *)

Record database := mkDb { users : list User; users_id_seq : Z }.

(** What a session sends to the database, in order. *)
Inductive db_op :=
| OpInsert (n e : string)
| OpSelectAll
| OpSelectById (i : Z)
| OpDeleteById (i : Z)
| OpCommit
| OpRollback.

(** [db] is the durable state, [view] the rows as the open transaction sees
    them, [identity] the mapped objects the session holds (an object is
    referred to by its position), [trace] the operations sent so far. *)
Record Session := mkSession
  { db : database; view : list User; identity : list Instance;
    trace : list db_op }.

Definition open_session (d : database) : Session :=
  mkSession d (users d) [] [].

Definition log (o : db_op) (s : Session) : Session :=
  mkSession (db s) (view s) (identity s) (trace s ++ [o]).

Definition set_view (v : list User) (s : Session) : Session :=
  mkSession (db s) v (identity s) (trace s).

Definition set_identity (l : list Instance) (s : Session) : Session :=
  mkSession (db s) (view s) l (trace s).

Definition set_db (d : database) (s : Session) : Session :=
  mkSession d (view s) (identity s) (trace s).

(** ** The monad of handler bodies *)

Definition M (A : Type) : Type := Session -> (exn + A) * Session.

Definition ret {A} (a : A) : M A := fun s => (inr a, s).

Definition raise {A} (e : exn) : M A := fun s => (inl e, s).

Definition bind {A B} (m : M A) (k : A -> M B) : M B :=
  fun s => match m s with
           | (inl e, s') => (inl e, s')
           | (inr a, s') => k a s'
           end.

(** [try: m  except Exception as e: h e] *)
Definition try_except {A} (m : M A) (h : exn -> M A) : M A :=
  fun s => match m s with
           | (inl e, s') => h e s'
           | (inr a, s') => (inr a, s')
           end.

Declare Scope handler_scope.
Delimit Scope handler_scope with handler.
Notation "x <- m ;; k" := (bind m (fun x => k))
  (at level 61, m at next level, right associativity) : handler_scope.
Notation "m ;; k" := (bind m (fun _ => k))
  (at level 61, right associativity) : handler_scope.
Local Open Scope handler_scope.

(** ** SQL statements *)

(** The SQL strings of the source. *)
Inductive clause :=
| SELECT_all              (* SELECT * FROM users *)
| SELECT_by_id (i : Z)    (* SELECT * FROM users WHERE id = i *)
| DELETE_by_id (i : Z).   (* DELETE FROM users WHERE id = i *)

(** What is passed to [session.execute]: the SQL wrapped in [text(...)],
    with its bound parameters (lines 86, 118 and 123), or the SQL as a bare
    Python [str] (the f-strings of lines 92 and 100). *)
Inductive statement :=
| text (c : clause)
| str (c : clause).

Definition has_id (i : Z) (r : User) : bool := id r =? i.

(** [session.execute(stmt)]: the statement is coerced to an executable
    before anything is sent, which fails for a [str]; a [text] clause runs
    inside the open transaction.  The bound id is taken to fit the 32-bit
    column, as every stored id does; the refusal of a larger one by the
    driver is not part of this definition. *)
Definition session_execute (stmt : statement) : M (list Row) :=
  match stmt with
  | str _ => raise ArgumentError
  | text SELECT_all =>
      fun s => (inr (view s), log OpSelectAll s)
  | text (SELECT_by_id i) =>
      fun s => (inr (filter (has_id i) (view s)), log (OpSelectById i) s)
  | text (DELETE_by_id i) =>
      fun s => (inr [],
                log (OpDeleteById i)
                    (set_view (filter (fun r => negb (has_id i r)) (view s)) s))
  end.

Definition fetchone (result : list Row) : option Row := hd_error result.

Definition fetchall (result : list Row) : list Row := result.

(** ** INSERT, flush, commit, rollback, refresh *)

(** The constraints of the table: primary key on [id], [unique] on
    [email]. *)
Definition violates (rows : list User) (u : User) : bool :=
  existsb (fun r => (id r =? id u) || String.eqb (email r) (email u)) rows.

(** What the database refuses before it takes a value from the sequence:
    a text with a NUL character, and an id beyond the 32-bit [Integer]
    column. *)
Definition int32_max : Z := 2147483647.

Fixpoint has_nul (s : string) : bool :=
  match s with
  | EmptyString => false
  | String c s' => Ascii.eqb c "000"%char || has_nul s'
  end.

Definition unstorable (i : Z) (n e : string) : bool :=
  has_nul n || has_nul e || (int32_max <? i).

Definition INSERT (n e : string) : M Z :=
  fun s =>
    let i := users_id_seq (db s) in
    if unstorable i n e
    then (inl DBAPIError, log (OpInsert n e) s)
    else
      let s' := log (OpInsert n e) (set_db (mkDb (users (db s)) (i + 1)) s) in
      if violates (view s) (mkUser i n e)
      then (inl IntegrityError, s')
      else (inr i, set_view (view s ++ [mkUser i n e]) s').

Fixpoint flush_pending (objs : list Instance) : M (list Instance) :=
  match objs with
  | [] => ret []
  | o :: rest =>
      match inst_id o with
      | Some _ =>
          rest' <- flush_pending rest ;;
          ret (o :: rest')
      | None =>
          i <- INSERT (inst_name o) (inst_email o) ;;
          rest' <- flush_pending rest ;;
          ret (mkInstance (Some i) (inst_name o) (inst_email o) :: rest')
      end
  end.

Definition session_flush : M unit :=
  fun s => match flush_pending (identity s) s with
           | (inl e, s') => (inl e, s')
           | (inr objs, s') => (inr tt, set_identity objs s')
           end.

(** [session.add(obj)] for a mapped object; the result stands for the
    Python reference to the object. *)
Definition session_add (o : Instance) : M nat :=
  fun s => (inr (List.length (identity s)), set_identity (identity s ++ [o]) s).

Definition session_commit : M unit :=
  session_flush ;;
  fun s => (inr tt,
            log OpCommit (set_db (mkDb (view s) (users_id_seq (db s))) s)).

Definition is_persistent (o : Instance) : bool :=
  match inst_id o with Some _ => true | None => false end.

Definition session_rollback : M unit :=
  fun s => (inr tt,
            log OpRollback
                (set_identity (filter is_persistent (identity s))
                              (set_view (users (db s)) s))).

Fixpoint list_set {A} (l : list A) (n : nat) (a : A) : list A :=
  match l, n with
  | [], _ => []
  | _ :: l', O => a :: l'
  | x :: l', S n' => x :: list_set l' n' a
  end.

Definition session_refresh (h : nat) : M unit :=
  fun s =>
    match nth_error (identity s) h with
    | Some o =>
        match inst_id o with
        | Some i =>
            match find (has_id i) (view s) with
            | Some r =>
                (inr tt,
                 log (OpSelectById i)
                     (set_identity
                        (list_set (identity s) h
                                  (mkInstance (Some i) (name r) (email r))) s))
            | None => (inl InvalidRequestError, log (OpSelectById i) s)
            end
        | None => (inl InvalidRequestError, s)
        end
    | None => (inl InvalidRequestError, s)
    end.

(** Reading the object behind a reference. *)
Definition deref (h : nat) : M Instance :=
  fun s => match nth_error (identity s) h with
           | Some o => (inr o, s)
           | None => (inl InvalidRequestError, s)
           end.

(** A [Row] is read-only and unmapped. *)
Definition Row_setattr (r : Row) (attr value : string) : M unit :=
  raise AttributeError.

Definition session_add_Row (r : Row) : M unit :=
  raise UnmappedInstanceError.

Definition session_refresh_Row (r : Row) : M unit :=
  raise UnmappedInstanceError.

(** ** The route handlers (lines 72-129) *)

Definition create_user (user : UserCreate) : M Instance :=
  let new_user := mkInstance None (uc_name user) (uc_email user) in
  new_user_ref <- session_add new_user ;;
  try_except
    (session_commit ;;
     session_refresh new_user_ref ;;
     deref new_user_ref)
    (fun e =>
       session_rollback ;;
       raise (HTTPException 400 "Error creating user")).

Definition get_users : M (list Row) :=
  result <- session_execute (text SELECT_all) ;;
  let users := fetchall result in
  ret users.

Definition get_user (id : Z) : M Row :=
  result <- session_execute (str (SELECT_by_id id)) ;;
  match fetchone result with
  | None => raise (HTTPException 404 "User not found")
  | Some user => ret user
  end.

Definition update_user (id : Z) (user : UserCreate) : M Row :=
  result <- session_execute (str (SELECT_by_id id)) ;;
  match fetchone result with
  | None => raise (HTTPException 404 "User not found")
  | Some existing_user =>
      Row_setattr existing_user "name" (uc_name user) ;;
      Row_setattr existing_user "email" (uc_email user) ;;
      session_add_Row existing_user ;;
      try_except
        (session_commit ;;
         session_refresh_Row existing_user ;;
         ret existing_user)
        (fun e =>
           session_rollback ;;
           raise (HTTPException 400 "Error updating user"))
  end.

Definition delete_user (id : Z) : M json :=
  result <- session_execute (text (SELECT_by_id id)) ;;
  match fetchone result with
  | None => raise (HTTPException 404 "User not found")
  | Some user =>
      session_execute (text (DELETE_by_id id)) ;;
      try_except
        (session_commit ;;
         ret (JDict [("message", JStr "User deleted successfully")]))
        (fun e =>
           session_rollback ;;
           raise (HTTPException 400 "Error deleting user"))
  end.

(** A transaction is open when something was sent and the last operation
    sent is neither COMMIT nor ROLLBACK. *)
Definition ends_transaction (o : db_op) : bool :=
  match o with OpCommit | OpRollback => true | _ => false end.

Definition in_transaction (t : list db_op) : bool :=
  match rev t with
  | [] => false
  | o :: _ => negb (ends_transaction o)
  end.

(** Leaving [async with async_session() as session]: an open transaction is
    rolled back. *)
Definition session_close (s : Session) : Session :=
  if in_transaction (trace s)
  then log OpRollback (set_view (users (db s)) s)
  else s.

(** One request, one session (the [get_session] dependency, lines 23-25):
    the session is opened on the database, the handler runs, and the
    session is closed, which drops what was not committed. *)
Definition run {A} (m : M A) (d : database)
  : (exn + A) * database * list db_op :=
  let (r, s) := m (open_session d) in
  let s' := session_close s in
  (r, db s', trace s').

(** ** Requests and the custom exception handler (lines 62-67) *)

(** A request, once matched against the five routes; [segment] is the text
    of [{id}] in the path, [payload] the JSON body when there is one. *)
Inductive Request :=
| POST_users (payload : option json)            (* POST /api/v1/users/ *)
| GET_users                                     (* GET /api/v1/users/ *)
| GET_users_id (segment : string)               (* GET /api/v1/users/{id} *)
| PUT_users_id (segment : string) (payload : option json)
                                                (* PUT /api/v1/users/{id} *)
| DELETE_users_id (segment : string).        (* DELETE /api/v1/users/{id} *)

(** [JSONResponse(status_code=..., content=...)]: the content is rendered
    when the response is built. *)
Definition JSONResponse (status : Z) (content : json) : exn + Response :=
  if json_compliant content then inr (mkResponse status content)
  else inl ValueError.

Definition validation_exception_handler (request : Request)
  (exc : ValidationExc) : exn + Response :=
  JSONResponse 400
    (JDict [("detail", JList (map error_json (errors exc)));
            ("body", body exc)]).

(** ** Request validation, response models and the application *)

Definition errs {A} (r : list ErrorDetails + A) : list ErrorDetails :=
  match r with inl es => es | inr _ => [] end.

Definition body_json (payload : option json) : json :=
  match payload with Some v => v | None => JNull end.

Definition internal_server_error : Response :=
  mkResponse 500 (JStr "Internal Server Error").

Definition exception_response (request : Request) (e : exn) : Response :=
  match e with
  | HTTPException status detail =>
      mkResponse status (JDict [("detail", JStr detail)])
  | RequestValidationError exc =>
      match validation_exception_handler request exc with
      | inr response => response
      | inl _ => internal_server_error
      end
  | _ => internal_server_error
  end.

Fixpoint all_some {A} (l : list (option A)) : option (list A) :=
  match l with
  | [] => Some []
  | None :: _ => None
  | Some a :: l' =>
      match all_some l' with Some r => Some (a :: r) | None => None end
  end.

(** A field declared [str]: present and a JSON string. *)
Definition field_str (field : string) (obj : list (string * json))
  : list ErrorDetails + string :=
  match dict_get field obj with
  | None => inl [mkError "missing" ["body"; field] (JDict obj)]
  | Some (JStr s) => inr s
  | Some v => inl [mkError "string_type" ["body"; field] v]
  end.

Section App.

(** The syntax check and normalisation behind [EmailStr], and the parsing
    of a path segment declared [int]. *)
Variable validate_email : string -> option string.
Variable parse_int : string -> option Z.

Definition field_EmailStr (field : string) (obj : list (string * json))
  : list ErrorDetails + string :=
  match field_str field obj with
  | inl es => inl es
  | inr s =>
      match validate_email s with
      | Some s' => inr s'
      | None => inl [mkError "value_error" ["body"; field] (JStr s)]
      end
  end.

(** Validation of a payload against [UserCreate] (the specification's
    [validate_create]): every field is checked and the errors of all of
    them are collected. *)
Definition UserCreate_validate (payload : json)
  : list ErrorDetails + UserCreate :=
  match payload with
  | JDict obj =>
      match field_str "name" obj, field_EmailStr "email" obj with
      | inr n, inr e => inr (mkUserCreate n e)
      | rn, re => inl (errs rn ++ errs re)
      end
  | v => inl [mkError "model_attributes_type" ["body"] v]
  end.

(** The body parameter [user: UserCreate]. *)
Definition request_body (payload : option json)
  : list ErrorDetails + UserCreate :=
  match payload with
  | None => inl [mkError "missing" ["body"] JNull]
  | Some v => UserCreate_validate v
  end.

(** The path parameter [id: int]. *)
Definition path_id (segment : string) : list ErrorDetails + Z :=
  match parse_int segment with
  | Some i => inr i
  | None => inl [mkError "int_parsing" ["path"; "id"] (JStr segment)]
  end.

(** [response_model=UserResponse] (lines 40-45), read from attributes. *)
Definition UserResponse_of_Row (r : Row) : option json :=
  match validate_email (email r) with
  | Some e =>
      Some (JDict [("id", JInt (id r)); ("name", JStr (name r));
                   ("email", JStr e)])
  | None => None
  end.

Definition UserResponse_of_Instance (o : Instance) : option json :=
  match inst_id o with
  | Some i => UserResponse_of_Row (mkUser i (inst_name o) (inst_email o))
  | None => None
  end.

Definition UserResponse_of_list (l : list Row) : option json :=
  option_map JList (all_some (map UserResponse_of_Row l)).

Definition respond {A} (request : Request) (model : A -> option json)
  (out : (exn + A) * database * list db_op)
  : Response * database * list db_op :=
  let '(r, d, t) := out in
  (match r with
   | inl e => exception_response request e
   | inr a =>
       match model a with
       | Some j => mkResponse 200 j
       | None => internal_server_error
       end
   end, d, t).

Definition invalid_request (request : Request) (es : list ErrorDetails)
  (payload : option json) (d : database)
  : Response * database * list db_op :=
  (exception_response request
     (RequestValidationError (mkValidationExc es (body_json payload))),
   d, []).

(** The application below its middleware: the parameters of the matched
    route are validated, and only if all are valid is the handler run. *)
Definition app (d : database) (request : Request)
  : Response * database * list db_op :=
  match request with
  | POST_users payload =>
      match request_body payload with
      | inr user =>
          respond request UserResponse_of_Instance (run (create_user user) d)
      | inl es => invalid_request request es payload d
      end
  | GET_users =>
      respond request UserResponse_of_list (run get_users d)
  | GET_users_id segment =>
      match path_id segment with
      | inr i => respond request UserResponse_of_Row (run (get_user i) d)
      | inl es => invalid_request request es None d
      end
  | PUT_users_id segment payload =>
      match path_id segment, request_body payload with
      | inr i, inr user =>
          respond request UserResponse_of_Row (run (update_user i user) d)
      | ri, rb => invalid_request request (errs ri ++ errs rb) payload d
      end
  | DELETE_users_id segment =>
      match path_id segment with
      | inr i => respond request Some (run (delete_user i) d)
      | inl es => invalid_request request es None d
      end
  end.

End App.

(** ** Concrete stand-ins for the two library parsers

    Used to run the model on concrete requests: an address is accepted when
    it has a non-empty local part, one [@] and a non-empty domain, and is
    returned as it is; an integer is a non-empty run of decimal digits with
    an optional minus sign. *)

Definition is_at (c : ascii) : bool := Ascii.eqb c "@"%char.

Fixpoint count_at (s : string) : nat :=
  match s with
  | EmptyString => O
  | String c s' => ((if is_at c then 1 else 0) + count_at s')%nat
  end.

Fixpoint local_part_length (s : string) : nat :=
  match s with
  | EmptyString => O
  | String c s' => if is_at c then O else S (local_part_length s')
  end.

Definition simple_email (s : string) : option string :=
  if (Nat.eqb (count_at s) 1
      && Nat.ltb 0 (local_part_length s)
      && Nat.ltb (S (local_part_length s)) (String.length s))%bool
  then Some s else None.

Definition digit (c : ascii) : option Z :=
  let n := Z.of_nat (nat_of_ascii c) in
  if ((48 <=? n) && (n <=? 57))%bool then Some (n - 48) else None.

Fixpoint digits (s : string) (acc : Z) : option Z :=
  match s with
  | EmptyString => Some acc
  | String c s' =>
      match digit c with
      | Some k => digits s' (10 * acc + k)
      | None => None
      end
  end.

Definition decimal_int (s : string) : option Z :=
  match s with
  | EmptyString => None
  | String "-"%char EmptyString => None
  | String "-"%char s' => option_map Z.opp (digits s' 0)
  | _ => digits s 0
  end.

Definition service := app simple_email decimal_int.

Definition ann : User := mkUser 1 "Ann" "ann@example.com".

Definition create_payload (n e : string) : json :=
  JDict [("name", JStr n); ("email", JStr e)].

Definition bob_payload : json := create_payload "Bob" "bob@example.com".

(** What [json.loads] makes of [1e999]. *)
Definition infinity : json := JFloat (S754_infinity false).



Definition request_payload (request : Request) : option json :=
  match request with
  | POST_users payload | PUT_users_id _ payload => payload
  | _ => None
  end.

(** The validation errors of a request: those of the path parameter, then
    those of the body. *)
Definition request_errors (validate_email : string -> option string)
  (parse_int : string -> option Z) (request : Request) : list ErrorDetails :=
  match request with
  | POST_users payload => errs (request_body validate_email payload)
  | GET_users => []
  | GET_users_id segment | DELETE_users_id segment =>
      errs (path_id parse_int segment)
  | PUT_users_id segment payload =>
      errs (path_id parse_int segment)
        ++ errs (request_body validate_email payload)
  end.

(** What makes a field of a payload acceptable, said without the
    validator. *)
Definition name_ok (obj : list (string * json)) : bool :=
  match dict_get "name" obj with Some (JStr _) => true | _ => false end.

Definition email_ok (validate_email : string -> option string)
  (obj : list (string * json)) : bool :=
  match dict_get "email" obj with
  | Some (JStr s) =>
      match validate_email s with Some _ => true | None => false end
  | _ => false
  end.

Definition same_email (e : string) (r : User) : bool :=
  String.eqb (email r) e.

(** ** The parts of an answer *)

Definition response_of (out : Response * database * list db_op) : Response :=
  fst (fst out).

Definition database_after (out : Response * database * list db_op)
  : database := snd (fst out).

Definition trace_of (out : Response * database * list db_op) : list db_op :=
  snd out.

(** The external representation of a row whose email is in normal form. *)
Definition user_json (r : User) : json :=
  JDict [("id", JInt (id r)); ("name", JStr (name r));
         ("email", JStr (email r))].

(** ** The middleware stack (lines 50-59 and 70)

    [add_middleware] puts each middleware in front of those added before,
    so the stack is, from the outside in: the server-error middleware, the
    trusted-host check, [LoggingMiddleware], the exception handlers and the
    routes. *)

(** A request as the middleware see it: the [Host] header, the text of
    [request.url], and the matched route. *)
Record HttpRequest := mkHttp
  { http_host : option string; http_url : string; http_route : Request }.

Definition method (request : Request) : string :=
  match request with
  | POST_users _ => "POST"
  | GET_users | GET_users_id _ => "GET"
  | PUT_users_id _ _ => "PUT"
  | DELETE_users_id _ => "DELETE"
  end.

(** [str(n)] for an integer [n], as an f-string formats it. *)
Definition str_int (z : Z) : string := NilZero.string_of_int (Z.to_int z).

(** The state a request runs against: the database, the messages handed to
    [logging.info], and the operations sent to the database. *)
Record Server := mkServer
  { store : database; info_records : list string; sent : list db_op }.

(** What escapes the exception handlers: an exception no handler is
    registered for or that a handler raised itself, or a return value the
    response model refuses. *)
Inductive uncaught :=
| Uncaught (e : exn)
| ResponseValidationError.

Definition Asgi (A : Type) : Type := Server -> (uncaught + A) * Server.

Definition aret {A} (a : A) : Asgi A := fun w => (inr a, w).

Definition abind {A B} (m : Asgi A) (k : A -> Asgi B) : Asgi B :=
  fun w => match m w with
           | (inl e, w') => (inl e, w')
           | (inr a, w') => k a w'
           end.

Declare Scope asgi_scope.
Delimit Scope asgi_scope with asgi.
Notation "x <- m ;; k" := (abind m (fun x => k))
  (at level 61, m at next level, right associativity) : asgi_scope.
Notation "m ;; k" := (abind m (fun _ => k))
  (at level 61, right associativity) : asgi_scope.

Definition logging_info (msg : string) : Asgi unit :=
  fun w => (inr tt, mkServer (store w) (info_records w ++ [msg]) (sent w)).

(** [LoggingMiddleware.dispatch] (lines 51-56). *)
Definition dispatch (request : HttpRequest)
  (call_next : HttpRequest -> Asgi Response) : Asgi Response :=
  (logging_info
     (String.append "Request: "
        (String.append (method (http_route request))
           (String.append " " (http_url request)))) ;;
   response <- call_next request ;;
   logging_info
     (String.append "Response status: " (str_int (status_code response))) ;;
   aret response)%asgi.

(** The trusted-host check, for [allowed_hosts] (line 70): the host is the
    [Host] header up to its first colon; it is valid when it equals a
    pattern or matches a pattern that starts with a star. *)
Definition allowed_hosts : list string := ["127.0.0.1"; "localhost"].

Fixpoint before_colon (s : string) : string :=
  match s with
  | EmptyString => EmptyString
  | String c s' =>
      if Ascii.eqb c ":"%char then EmptyString
      else String c (before_colon s')
  end.

Definition endswith (s suffix : string) : bool :=
  (String.length suffix <=? String.length s)%nat
  && String.eqb
       (substring (String.length s - String.length suffix)
                  (String.length suffix) s)
       suffix.

Definition wildcard_match (pattern host : string) : bool :=
  match pattern with
  | String "*"%char suffix => endswith host suffix
  | _ => false
  end.

(** The loop over the patterns: whether the host is valid, and whether a
    pattern equal to ["www." + host] was met before that. *)
Fixpoint scan_hosts (host : string) (patterns : list string)
  (found_www_redirect : bool) : bool * bool :=
  match patterns with
  | [] => (false, found_www_redirect)
  | pattern :: rest =>
      if String.eqb host pattern || wildcard_match pattern host
      then (true, found_www_redirect)
      else if String.eqb (String.append "www." host) pattern
           then scan_hosts host rest true
           else scan_hosts host rest found_www_redirect
  end.

Definition request_host (request : HttpRequest) : string :=
  before_colon (match http_host request with Some h => h | None => "" end).

Definition invalid_host : Response :=
  mkResponse 400 (JStr "Invalid host header").

Definition trusted_host (inner : HttpRequest -> Asgi Response)
  (request : HttpRequest) : Asgi Response :=
  match scan_hosts (request_host request) allowed_hosts false with
  | (true, _) => inner request
  | (false, true) => aret (mkResponse 307 JNull)
  | (false, false) => aret invalid_host
  end.

Section Stack.

Variable validate_email : string -> option string.
Variable parse_int : string -> option Z.

(** The exception handlers around a route: an [HTTPException] and a
    request-validation error become responses, anything else escapes. *)
Definition respond_or_raise {A} (request : Request) (model : A -> option json)
  (out : (exn + A) * database * list db_op)
  : (uncaught + Response) * database * list db_op :=
  let '(r, d, t) := out in
  (match r with
   | inl (HTTPException status detail) =>
       inr (mkResponse status (JDict [("detail", JStr detail)]))
   | inl (RequestValidationError exc) =>
       match validation_exception_handler request exc with
       | inr response => inr response
       | inl e => inl (Uncaught e)
       end
   | inl e => inl (Uncaught e)
   | inr a =>
       match model a with
       | Some j => inr (mkResponse 200 j)
       | None => inl ResponseValidationError
       end
   end, d, t).

Definition refuse (request : Request) (es : list ErrorDetails)
  (payload : option json) (d : database)
  : (uncaught + Response) * database * list db_op :=
  (match validation_exception_handler request
           (mkValidationExc es (body_json payload)) with
   | inr response => inr response
   | inl e => inl (Uncaught e)
   end, d, []).

(** The routes with their parameter validation, as in [app], before the
    server-error middleware has turned what escapes into a response. *)
Definition routes (d : database) (request : Request)
  : (uncaught + Response) * database * list db_op :=
  match request with
  | POST_users payload =>
      match request_body validate_email payload with
      | inr user =>
          respond_or_raise request (UserResponse_of_Instance validate_email)
            (run (create_user user) d)
      | inl es => refuse request es payload d
      end
  | GET_users =>
      respond_or_raise request (UserResponse_of_list validate_email)
        (run get_users d)
  | GET_users_id segment =>
      match path_id parse_int segment with
      | inr i =>
          respond_or_raise request (UserResponse_of_Row validate_email)
            (run (get_user i) d)
      | inl es => refuse request es None d
      end
  | PUT_users_id segment payload =>
      match path_id parse_int segment,
            request_body validate_email payload with
      | inr i, inr user =>
          respond_or_raise request (UserResponse_of_Row validate_email)
            (run (update_user i user) d)
      | ri, rb => refuse request (errs ri ++ errs rb) payload d
      end
  | DELETE_users_id segment =>
      match path_id parse_int segment with
      | inr i => respond_or_raise request Some (run (delete_user i) d)
      | inl es => refuse request es None d
      end
  end.

Definition call_routes (request : HttpRequest) : Asgi Response :=
  fun w =>
    let '(o, d, t) := routes (store w) (http_route request) in
    (o, mkServer d (info_records w) (sent w ++ t)).

(** The whole stack; what escapes it is answered with status 500. *)
Definition server (request : HttpRequest) (w : Server) : Response * Server :=
  match trusted_host (fun r => dispatch r call_routes) request w with
  | (inr response, w') => (response, w')
  | (inl _, w') => (internal_server_error, w')
  end.

End Stack.

Definition request_line (request : HttpRequest) : string :=
  String.append "Request: "
    (String.append (method (http_route request))
       (String.append " " (http_url request))).

Definition status_line (response : Response) : string :=
  String.append "Response status: " (str_int (status_code response)).

Definition local_server := server simple_email decimal_int.


(** The row a create request stores when it succeeds. *)
Definition created_row (d : database) (user : UserCreate) : User :=
  mkUser (users_id_seq d) (uc_name user) (uc_email user).

Definition is_commit (o : db_op) : bool :=
  match o with OpCommit => true | _ => false end.

Definition int32_min : Z := -2147483648.

(** What the server-error middleware makes of an outcome. *)
Definition settle (o : uncaught + Response) : Response :=
  match o with inr response => response | inl _ => internal_server_error end.

(** * Properties *)

(** Unfolds the validation of a request down to the lookups in its
    payload. *)
Ltac unfold_validation :=
  unfold app, request_body, path_id, UserCreate_validate, field_EmailStr,
    field_str.

(** ** The session primitives *)

Lemma execute_str_refused (c : clause) (s : Session) :
  session_execute (str c) s = (inl ArgumentError, s).
Proof. reflexivity. Qed.

Lemma violates_spec (rows : list User) (u : User) :
  violates rows u = true <->
  exists r, In r rows /\ (id r = id u \/ email r = email u).
Proof.
  unfold violates. rewrite existsb_exists. split.
  - intros [r [Hin Hr]]. exists r. split; [exact Hin|].
    apply orb_true_iff in Hr. destruct Hr as [Hr | Hr].
    + left. now apply Z.eqb_eq.
    + right. now apply String.eqb_eq.
  - intros [r [Hin Hr]]. exists r. split; [exact Hin|].
    apply orb_true_iff. destruct Hr as [Hr | Hr].
    + left. now apply Z.eqb_eq.
    + right. now apply String.eqb_eq.
Qed.

Lemma violates_email (rows : list User) (i : Z) (n e : string) :
  In e (map email rows) -> violates rows (mkUser i n e) = true.
Proof.
  intros Hin. apply violates_spec. apply in_map_iff in Hin.
  destruct Hin as [r [He Hr]]. exists r. split; [exact Hr|]. now right.
Qed.

Lemma find_fresh (rows : list User) (u : User) :
  violates rows u = false -> find (has_id (id u)) (rows ++ [u]) = Some u.
Proof.
  induction rows as [|r rows IH]; simpl.
  - intros _. unfold has_id. now rewrite Z.eqb_refl.
  - intros Hv. apply orb_false_iff in Hv. destruct Hv as [Hr Hrows].
    apply orb_false_iff in Hr. destruct Hr as [Hid _].
    unfold has_id at 1. rewrite Hid. now apply IH.
Qed.

Lemma same_email_absent (e : string) (rows : list User) :
  ~ In e (map email rows) -> filter (same_email e) rows = [].
Proof.
  induction rows as [|r rows IH]; simpl; [reflexivity|].
  intros Hnot. unfold same_email at 1.
  destruct (String.eqb_spec (email r) e) as [Heq | Hne].
  - exfalso. apply Hnot. now left.
  - apply IH. intros Hin. apply Hnot. now right.
Qed.

Lemma same_email_once (e : string) (rows : list User) :
  NoDup (map email rows) -> In e (map email rows) ->
  List.length (filter (same_email e) rows) = 1%nat.
Proof.
  induction rows as [|r rows IH]; simpl; [intros _ []|].
  intros Hnd Hin. inversion Hnd as [|x l Hnotin Hnd' Heq]; subst.
  unfold same_email at 1.
  destruct (String.eqb_spec (email r) e) as [Heq | Hne].
  - subst e. now rewrite same_email_absent.
  - destruct Hin as [Hin | Hin]; [contradiction|]. now apply IH.
Qed.

(** ** The handlers, run in a fresh session *)

Lemma get_user_fails (i : Z) (d : database) :
  run (get_user i) d = (inl ArgumentError, d, []).
Proof. reflexivity. Qed.

Lemma update_user_fails (i : Z) (user : UserCreate) (d : database) :
  run (update_user i user) d = (inl ArgumentError, d, []).
Proof. reflexivity. Qed.

Lemma get_users_all (d : database) :
  run get_users d = (inr (users d), d, [OpSelectAll; OpRollback]).
Proof. destruct d; reflexivity. Qed.

Lemma create_user_unstorable (user : UserCreate) (d : database) :
  unstorable (users_id_seq d) (uc_name user) (uc_email user) = true ->
  run (create_user user) d =
    (inl (HTTPException 400 "Error creating user"), d,
     [OpInsert (uc_name user) (uc_email user); OpRollback]).
Proof.
  intros Hu. unfold run, create_user, try_except, bind, session_add,
    session_commit, session_flush, bind. simpl.
  unfold INSERT, bind. simpl. rewrite Hu. destruct d; reflexivity.
Qed.

Lemma create_user_conflict (user : UserCreate) (d : database) :
  unstorable (users_id_seq d) (uc_name user) (uc_email user) = false ->
  violates (users d)
    (mkUser (users_id_seq d) (uc_name user) (uc_email user)) = true ->
  run (create_user user) d =
    (inl (HTTPException 400 "Error creating user"),
     mkDb (users d) (users_id_seq d + 1),
     [OpInsert (uc_name user) (uc_email user); OpRollback]).
Proof.
  intros Hu Hv. unfold run, create_user, try_except, bind, session_add,
    session_commit, session_flush, bind. simpl.
  unfold INSERT, bind. simpl. rewrite Hu, Hv. reflexivity.
Qed.

Lemma create_user_stored (user : UserCreate) (d : database) :
  unstorable (users_id_seq d) (uc_name user) (uc_email user) = false ->
  violates (users d)
    (mkUser (users_id_seq d) (uc_name user) (uc_email user)) = false ->
  run (create_user user) d =
    (inr (mkInstance (Some (users_id_seq d)) (uc_name user) (uc_email user)),
     mkDb (users d ++ [mkUser (users_id_seq d) (uc_name user) (uc_email user)])
          (users_id_seq d + 1),
     [OpInsert (uc_name user) (uc_email user); OpCommit;
      OpSelectById (users_id_seq d); OpRollback]).
Proof.
  intros Hu Hv. unfold run, create_user, try_except, bind, session_add,
    session_commit, session_flush, bind. simpl.
  unfold INSERT, bind. simpl. rewrite Hu, Hv. simpl.
  unfold session_refresh, deref, bind. simpl.
  pose proof (find_fresh _ _ Hv) as Hf. simpl in Hf. rewrite Hf. reflexivity.
Qed.

Lemma delete_user_absent (i : Z) (d : database) :
  filter (has_id i) (users d) = [] ->
  run (delete_user i) d =
    (inl (HTTPException 404 "User not found"), d,
     [OpSelectById i; OpRollback]).
Proof.
  intros Hf. unfold run, delete_user, bind. simpl. rewrite Hf.
  destruct d; reflexivity.
Qed.

Lemma delete_user_stored (i : Z) (d : database) :
  filter (has_id i) (users d) <> [] ->
  run (delete_user i) d =
    (inr (JDict [("message", JStr "User deleted successfully")]),
     mkDb (filter (fun r => negb (has_id i r)) (users d)) (users_id_seq d),
     [OpSelectById i; OpDeleteById i; OpCommit]).
Proof.
  intros Hf. unfold run, delete_user, bind. simpl.
  destruct (filter (has_id i) (users d)) as [|r l]; [contradiction|].
  reflexivity.
Qed.

Lemma deleted_id_gone (i : Z) (rows : list User) :
  filter (has_id i) (filter (fun r => negb (has_id i r)) rows) = [].
Proof.
  induction rows as [|r rows IH]; simpl; [reflexivity|].
  destruct (has_id i r) eqn:Hr; simpl; [exact IH|]. now rewrite Hr.
Qed.

(** ** The application *)

Section AppFacts.

Variable validate_email : string -> option string.
Variable parse_int : string -> option Z.

(** Whatever the stored rows, a GET or PUT on a well-formed id ends in
    the server-error response and sends nothing to the database. *)
Lemma app_get_user (d : database) (segment : string) (i : Z) :
  parse_int segment = Some i ->
  app validate_email parse_int d (GET_users_id segment) =
  (internal_server_error, d, []).
Proof.
  intros Hi. unfold_validation. rewrite Hi. reflexivity.
Qed.

Lemma app_update_user (d : database) (segment : string) (i : Z)
  (payload : json) (user : UserCreate) :
  parse_int segment = Some i ->
  UserCreate_validate validate_email payload = inr user ->
  app validate_email parse_int d (PUT_users_id segment (Some payload)) =
    (internal_server_error, d, []).
Proof.
  intros Hi Hu. unfold app, path_id, request_body. rewrite Hi, Hu.
  reflexivity.
Qed.

(** DELETE on an id that has no row answers 404 and leaves the table as
    it is; DELETE on a stored id removes its row, after which a second
    DELETE answers 404. *)
Lemma app_delete_absent (d : database) (segment : string) (i : Z) :
  parse_int segment = Some i ->
  filter (has_id i) (users d) = [] ->
  app validate_email parse_int d (DELETE_users_id segment) =
    (mkResponse 404 (JDict [("detail", JStr "User not found")]), d,
     [OpSelectById i; OpRollback]).
Proof.
  intros Hi Hf. unfold app, path_id. rewrite Hi.
  unfold respond. now rewrite delete_user_absent.
Qed.

Lemma app_delete_twice (d : database) (segment : string) (i : Z) :
  parse_int segment = Some i ->
  filter (has_id i) (users d) <> [] ->
  exists d',
    app validate_email parse_int d (DELETE_users_id segment) =
      (mkResponse 200
         (JDict [("message", JStr "User deleted successfully")]), d',
       [OpSelectById i; OpDeleteById i; OpCommit])
    /\ app validate_email parse_int d' (DELETE_users_id segment) =
      (mkResponse 404 (JDict [("detail", JStr "User not found")]), d',
       [OpSelectById i; OpRollback]).
Proof.
  intros Hi Hf. eexists. split.
  - unfold app, path_id. rewrite Hi. unfold respond.
    rewrite (delete_user_stored i d Hf). reflexivity.
  - apply app_delete_absent; [exact Hi|]. simpl. apply deleted_id_gone.
Qed.

End AppFacts.

(** ** Validation of the create payload *)

(** C4, as amended. [UserCreate] accepts every JSON string as [name], the
    empty one too.  A payload is accepted exactly when [name] is a string
    and [email] is a string the syntax check accepts; the accepted value
    carries that name and the normalised address.  When a payload is
    refused, the error list has an entry located at a field exactly when
    that field is missing or malformed: every bad field is reported, not
    only the first. *)
Theorem UserCreate_validate_reports_every_field
  (validate_email : string -> option string) (obj : list (string * json)) :
  match UserCreate_validate validate_email (JDict obj) with
  | inr user =>
      dict_get "name" obj = Some (JStr (uc_name user))
      /\ exists s, dict_get "email" obj = Some (JStr s)
                   /\ validate_email s = Some (uc_email user)
  | inl es =>
      (name_ok obj = false \/ email_ok validate_email obj = false)
      /\ (name_ok obj = false <->
          exists err, In err es /\ err_loc err = ["body"; "name"])
      /\ (email_ok validate_email obj = false <->
          exists err, In err es /\ err_loc err = ["body"; "email"])
  end.
Proof.
  unfold UserCreate_validate, field_EmailStr, field_str, name_ok, email_ok.
  destruct (dict_get "name" obj) as [[| | | |n| |]|];
    destruct (dict_get "email" obj) as [[| | | |e| |]|];
    try destruct (validate_email e) as [e'|] eqn:He; simpl;
    repeat split;
    try (intros [err [[Herr | [Herr | []]] Hloc]]; subst err; simpl in Hloc);
    try (intros [err [[Herr | []] Hloc]]; subst err; simpl in Hloc);
    try discriminate; try reflexivity; try congruence;
    intros; eauto 8 using in_eq, in_cons.
Qed.

(** C4, as stated, fails: a payload whose name is the empty string and
    whose email is well formed is accepted. *)
Lemma empty_name_accepted :
  UserCreate_validate simple_email (create_payload "" "a@x.com")
    = inr (mkUserCreate "" "a@x.com")
  /\ ~ (forall validate_email obj,
          dict_get "name" obj = Some (JStr "") ->
          exists es, UserCreate_validate validate_email (JDict obj) = inl es).
Proof.
  split; [reflexivity|]. intros H.
  destruct (H simple_email [("name", JStr ""); ("email", JStr "a@x.com")]
              eq_refl) as [es Hes].
  vm_compute in Hes. discriminate.
Qed.

(** ** Requests that fail validation *)





Lemma handler_status (request : Request) (exc : ValidationExc)
  (response : Response) :
  validation_exception_handler request exc = inr response ->
  status_code response = 400.
Proof.
  unfold validation_exception_handler, JSONResponse.
  destruct (json_compliant _); [|discriminate].
  now intros [= <-].
Qed.

Section Refusal.

Variable validate_email : string -> option string.
Variable parse_int : string -> option Z.



(** A request with an invalid parameter is answered by
    [validation_exception_handler] and no handler is run. *)
Lemma app_refuses (d : database) (request : Request) :
  request_errors validate_email parse_int request <> [] ->
  app validate_email parse_int d request =
    (match validation_exception_handler request
             (mkValidationExc
                (request_errors validate_email parse_int request)
                (body_json (request_payload request))) with
     | inr response => response
     | inl _ => internal_server_error
     end, d, []).
Proof.
  destruct request as [payload| |segment|segment payload|segment];
    unfold app, request_errors, invalid_request, exception_response;
    cbn [request_payload]; intros Herr.
  - destruct (request_body validate_email payload) as [es|user];
      [reflexivity | now contradiction Herr].
  - now contradiction Herr.
  - destruct (path_id parse_int segment) as [es|i];
      [reflexivity | now contradiction Herr].
  - destruct (path_id parse_int segment) as [es|i];
      destruct (request_body validate_email payload) as [es'|user];
      try reflexivity. now contradiction Herr.
  - destruct (path_id parse_int segment) as [es|i];
      [reflexivity | now contradiction Herr].
Qed.




End Refusal.

(** C10. The handler raises instead of answering when the body it echoes
    holds the value 1e999: for the body [[1e999]], which is not an object
    and so fails validation, the request is answered 500, not 400 with
    detail and body. *)
Theorem validation_handler_raises_on_infinity :
  request_errors simple_email decimal_int
    (POST_users (Some (JList [infinity])))
    = [mkError "model_attributes_type" ["body"] (JList [infinity])]
  /\ validation_exception_handler (POST_users (Some (JList [infinity])))
       (mkValidationExc
          [mkError "model_attributes_type" ["body"] (JList [infinity])]
          (JList [infinity]))
     = inl ValueError
  /\ service (mkDb [ann] 2) (POST_users (Some (JList [infinity])))
     = (internal_server_error, mkDb [ann] 2, []).
Proof. repeat split. Qed.

(** C3. A create payload whose email is refused by the syntax check and
    that also holds a field with the value 1e999 is answered 500, not 400;
    the database is not reached, as for every invalid payload. *)
Theorem create_invalid_email_infinite_field :
  simple_email "bob" = None
  /\ service (mkDb [ann] 2)
       (POST_users
          (Some (JDict [("name", JStr "Bob"); ("email", JStr "bob");
                        ("x", infinity)])))
     = (internal_server_error, mkDb [ann] 2, []).
Proof. split; reflexivity. Qed.

(** C9. A PUT on /api/v1/users/abc whose body holds a field with the
    value 1e999 is answered 500, not 400; the handler is not entered and
    the database is not reached.  (GET and DELETE carry no body and are
    answered 400.) *)
Theorem non_integer_id_infinite_body :
  decimal_int "abc" = None
  /\ service (mkDb [ann] 2)
       (PUT_users_id "abc"
          (Some (JDict [("name", JStr "Bob");
                        ("email", JStr "bob@example.com");
                        ("x", infinity)])))
     = (internal_server_error, mkDb [ann] 2, [])
  /\ status_code
       (response_of (service (mkDb [ann] 2) (GET_users_id "abc"))) = 400
  /\ status_code
       (response_of (service (mkDb [ann] 2) (DELETE_users_id "abc"))) = 400.
Proof. repeat split. Qed.

(** ** Creating a user whose email is already stored *)

(** A create request whose email is stored is refused, whatever else the
    database would object to, and the rows stay as they were. *)
Lemma post_conflict
  (validate_email : string -> option string) (parse_int : string -> option Z)
  (d : database) (obj : list (string * json)) (n e0 e : string) :
  dict_get "name" obj = Some (JStr n) ->
  dict_get "email" obj = Some (JStr e0) ->
  validate_email e0 = Some e ->
  In e (map email (users d)) ->
  exists d',
    app validate_email parse_int d (POST_users (Some (JDict obj))) =
      (mkResponse 400 (JDict [("detail", JStr "Error creating user")]), d',
       [OpInsert n e; OpRollback])
    /\ users d' = users d.
Proof.
  intros Hname Hemail Hvalid Hin.
  destruct (unstorable (users_id_seq d) n e) eqn:Hu.
  - exists d. split; [|reflexivity].
    unfold_validation. rewrite Hname, Hemail, Hvalid. unfold respond.
    now rewrite create_user_unstorable.
  - exists (mkDb (users d) (users_id_seq d + 1)). split; [|reflexivity].
    unfold_validation. rewrite Hname, Hemail, Hvalid. unfold respond.
    rewrite create_user_conflict; [reflexivity | exact Hu |].
    now apply violates_email.
Qed.

(** C2. When a row with some email is stored, a create request whose email
    normalises to that email is answered with status 400 and the generic
    message of the create handler; the INSERT is rolled back, the rows of
    the table are those from before the request, and exactly one of them
    has that email. *)
Theorem create_user_duplicate_email
  (validate_email : string -> option string) (parse_int : string -> option Z)
  (d : database) (obj : list (string * json)) (n e0 e : string) :
  dict_get "name" obj = Some (JStr n) ->
  dict_get "email" obj = Some (JStr e0) ->
  validate_email e0 = Some e ->
  NoDup (map email (users d)) ->
  In e (map email (users d)) ->
  exists d',
    app validate_email parse_int d (POST_users (Some (JDict obj))) =
      (mkResponse 400 (JDict [("detail", JStr "Error creating user")]), d',
       [OpInsert n e; OpRollback])
    /\ users d' = users d
    /\ List.length (filter (same_email e) (users d')) = 1%nat.
Proof.
  intros Hname Hemail Hvalid Hnodup Hin.
  destruct (post_conflict validate_email parse_int d obj n e0 e
              Hname Hemail Hvalid Hin) as [d' [Happ Hrows]].
  exists d'. split; [exact Happ|]. split; [exact Hrows|].
  rewrite Hrows. now apply same_email_once.
Qed.

Lemma create_user_duplicate_email_witness :
  exists d',
    service (mkDb [ann] 2)
      (POST_users (Some (create_payload "Bob" "ann@example.com"))) =
      (mkResponse 400 (JDict [("detail", JStr "Error creating user")]), d',
       [OpInsert "Bob" "ann@example.com"; OpRollback])
    /\ users d' = [ann]
    /\ List.length (filter (same_email "ann@example.com") (users d')) = 1%nat.
Proof.
  apply (create_user_duplicate_email simple_email decimal_int (mkDb [ann] 2)
           [("name", JStr "Bob"); ("email", JStr "ann@example.com")]
           "Bob" "ann@example.com" "ann@example.com"); try reflexivity.
  - simpl. constructor; [intros [] | constructor].
  - simpl. left. reflexivity.
Defined.

(** Two creates with one email, from any table: when the first is stored,
    the second is refused and the table holds one row with that email. *)
Lemma create_twice_same_email
  (validate_email : string -> option string) (parse_int : string -> option Z)
  (d : database) (n1 n2 e0 e : string) :
  validate_email e0 = Some e ->
  unstorable (users_id_seq d) n1 e = false ->
  violates (users d) (mkUser (users_id_seq d) n1 e) = false ->
  exists d1 d2,
    snd (fst (app validate_email parse_int d
                (POST_users (Some (create_payload n1 e0))))) = d1
    /\ users d1 = users d ++ [mkUser (users_id_seq d) n1 e]
    /\ app validate_email parse_int d1
         (POST_users (Some (create_payload n2 e0))) =
       (mkResponse 400 (JDict [("detail", JStr "Error creating user")]), d2,
        [OpInsert n2 e; OpRollback])
    /\ users d2 = users d1
    /\ List.length (filter (same_email e) (users d2)) = 1%nat.
Proof.
  intros Hvalid Hstorable Hfresh.
  set (d1 := mkDb (users d ++ [mkUser (users_id_seq d) n1 e])
                  (users_id_seq d + 1)).
  assert (Hin : In e (map email (users d1))).
  { simpl. rewrite map_app. apply in_or_app. right. now left. }
  destruct (post_conflict validate_email parse_int d1
              [("name", JStr n2); ("email", JStr e0)] n2 e0 e
              eq_refl eq_refl Hvalid Hin) as [d2 [Happ Hrows]].
  exists d1, d2.
  split; [|split; [reflexivity|split; [exact Happ|split; [exact Hrows|]]]].
  - unfold_validation. simpl. rewrite Hvalid. unfold respond.
    now rewrite (create_user_stored (mkUserCreate n1 e) d Hstorable Hfresh).
  - rewrite Hrows. simpl. rewrite filter_app, length_app. simpl.
    unfold same_email at 2. simpl. rewrite String.eqb_refl. simpl.
    rewrite same_email_absent; [reflexivity|].
    intros Hin'. apply in_map_iff in Hin'. destruct Hin' as [r [Hr Hin']].
    assert (Hv : violates (users d) (mkUser (users_id_seq d) n1 e) = true).
    { apply violates_spec. exists r. split; [exact Hin'|]. now right. }
    congruence.
Qed.

(** ** Reading, updating and deleting by id *)

(** C5. With the row of Ann stored under id 1, GET /api/v1/users/1 is
    answered with status 500: [session.execute] refuses the bare string, so
    the row is not returned (and for an id without a row the answer is the
    same 500, not 404). *)
Theorem get_user_stored_row :
  In ann (users (mkDb [ann] 2))
  /\ service (mkDb [ann] 2) (GET_users_id "1") =
       (internal_server_error, mkDb [ann] 2, [])
  /\ service (mkDb [ann] 2) (GET_users_id "7") =
       (internal_server_error, mkDb [ann] 2, []).
Proof. split; [now left|]. split; reflexivity. Qed.

(** C1. With the row of Ann stored under id 1, PUT /api/v1/users/1 with a
    valid payload is answered with status 500 and the row keeps its name
    and email: nothing is overwritten. *)
Theorem update_user_stored_row :
  service (mkDb [ann] 2) (PUT_users_id "1" (Some bob_payload)) =
    (internal_server_error, mkDb [ann] 2, []).
Proof. reflexivity. Qed.

(** C8. With no row under id 7, PUT /api/v1/users/7 leaves the table as it
    is and writes nothing, but the answer is status 500, not 404. *)
Theorem update_user_absent_row :
  filter (has_id 7) (users (mkDb [ann] 2)) = []
  /\ service (mkDb [ann] 2) (PUT_users_id "7" (Some bob_payload)) =
       (internal_server_error, mkDb [ann] 2, []).
Proof. split; reflexivity. Qed.

(** C6. On the empty table, create(name="A", email="a@x.com") stores the
    row and answers with id 1; GET on that id is then answered with status
    500 instead of the stored user. *)
Theorem create_then_get :
  service (mkDb [] 1) (POST_users (Some (create_payload "A" "a@x.com"))) =
    (mkResponse 200
       (JDict [("id", JInt 1); ("name", JStr "A"); ("email", JStr "a@x.com")]),
     mkDb [mkUser 1 "A" "a@x.com"] 2,
     [OpInsert "A" "a@x.com"; OpCommit; OpSelectById 1; OpRollback])
  /\ service (mkDb [mkUser 1 "A" "a@x.com"] 2) (GET_users_id "1") =
       (internal_server_error, mkDb [mkUser 1 "A" "a@x.com"] 2, []).
Proof. split; reflexivity. Qed.

(** C7. With the row of Ann stored under id 1, DELETE /api/v1/users/1
    succeeds with status 200 and a message and removes the row; GET on the
    same id is then answered with status 500, not 404. *)
Theorem delete_then_get :
  service (mkDb [ann] 2) (DELETE_users_id "1") =
    (mkResponse 200 (JDict [("message", JStr "User deleted successfully")]),
     mkDb [] 2, [OpSelectById 1; OpDeleteById 1; OpCommit])
  /\ service (mkDb [] 2) (GET_users_id "1") =
       (internal_server_error, mkDb [] 2, []).
Proof. split; reflexivity. Qed.


(** * The rest of the service: listing, storing, deleting, the middleware *)

(** ** Facts on lists of rows *)

Lemma violates_false (rows : list User) (u : User) :
  violates rows u = false <->
  ~ In (id u) (map id rows) /\ ~ In (email u) (map email rows).
Proof.
  split.
  - intros Hv. split; intros Hin; apply in_map_iff in Hin;
      destruct Hin as [r [Heq Hin]];
      assert (Ht : violates rows u = true)
        by (apply violates_spec; exists r; auto);
      congruence.
  - intros [Hid Hemail]. destruct (violates rows u) eqn:Hv; [|reflexivity].
    apply violates_spec in Hv. destruct Hv as [r [Hin [Heq | Heq]]].
    + exfalso. apply Hid. rewrite <- Heq. now apply in_map.
    + exfalso. apply Hemail. rewrite <- Heq. now apply in_map.
Qed.


Lemma NoDup_snoc {A} (l : list A) (a : A) :
  NoDup l -> ~ In a l -> NoDup (l ++ [a]).
Proof.
  intros Hl Ha. apply NoDup_app; [exact Hl | repeat constructor; intros [] |].
  intros x Hx [Heq | []]. subst x. contradiction.
Qed.

(** Dropping rows keeps a column free of duplicates. *)
Lemma column_unique_after_filter {K} (column : User -> K)
  (keep : User -> bool) (rows : list User) :
  NoDup (map column rows) -> NoDup (map column (filter keep rows)).
Proof.
  induction rows as [|r rows IH]; intros Hunique; [exact Hunique|].
  apply NoDup_cons_iff in Hunique. destruct Hunique as [Hfresh Hrest].
  simpl. destruct (keep r); [|exact (IH Hrest)].
  simpl. apply NoDup_cons_iff. split; [|exact (IH Hrest)].
  intros Hin. apply in_map_iff in Hin. destruct Hin as [r' [Hsame Hkept]].
  apply Hfresh. apply in_map_iff. exists r'.
  apply filter_In in Hkept. tauto.
Qed.

Lemma has_id_none (i : Z) (rows : list User) :
  filter (has_id i) rows = [] <-> ~ In i (map id rows).
Proof.
  induction rows as [|r rows IH]; simpl; [tauto|].
  unfold has_id at 1. destruct (Z.eqb_spec (id r) i) as [Heq | Hne].
  - split; [discriminate | intros Hnot; exfalso; apply Hnot; now left].
  - rewrite IH. tauto.
Qed.


Lemma all_some_map {A B} (f : A -> option B) (g : A -> B) (l : list A) :
  Forall (fun a => f a = Some (g a)) l ->
  all_some (map f l) = Some (map g l).
Proof.
  induction 1 as [|a l Ha Hl IH]; simpl; [reflexivity|].
  now rewrite Ha, IH.
Qed.

Lemma all_some_none {A B} (f : A -> option B) (l : list A) (a : A) :
  In a l -> f a = None -> all_some (map f l) = None.
Proof.
  induction l as [|x l IH]; simpl; [intros []|].
  intros [Heq | Hin] Hnone.
  - subst x. now rewrite Hnone.
  - destruct (f x); [|reflexivity]. now rewrite IH.
Qed.


(** ** What each route does, in closed form *)

Section Outcomes.

Variable validate_email : string -> option string.
Variable parse_int : string -> option Z.

Lemma respond_settles {A} (request : Request) (model : A -> option json)
  (out : (exn + A) * database * list db_op) :
  respond request model out =
    let '(o, d, t) := respond_or_raise request model out in (settle o, d, t).
Proof.
  destruct out as [[[e | a] d] t]; simpl.
  - destruct e; try reflexivity. unfold exception_response.
    destruct (validation_exception_handler request exc); reflexivity.
  - destruct (model a); reflexivity.
Qed.

Lemma refuse_settles (request : Request) (es : list ErrorDetails)
  (payload : option json) (d : database) :
  invalid_request request es payload d =
    let '(o, d', t) := refuse request es payload d in (settle o, d', t).
Proof.
  unfold invalid_request, refuse, exception_response.
  destruct (validation_exception_handler request _); reflexivity.
Qed.

(** The application is the routes followed by the server-error
    middleware. *)
Lemma app_routes (d : database) (request : Request) :
  app validate_email parse_int d request =
    let '(o, d', t) := routes validate_email parse_int d request in
    (settle o, d', t).
Proof.
  destruct request as [payload| |segment|segment payload|segment];
    unfold app, routes.
  - destruct (request_body validate_email payload);
      [apply refuse_settles | apply respond_settles].
  - apply respond_settles.
  - destruct (path_id parse_int segment);
      [apply refuse_settles | apply respond_settles].
  - destruct (path_id parse_int segment);
      destruct (request_body validate_email payload);
      try apply refuse_settles; apply respond_settles.
  - destruct (path_id parse_int segment);
      [apply refuse_settles | apply respond_settles].
Qed.

Lemma routes_outcome (d : database) (request : Request) :
  routes validate_email parse_int d request =
    match request with
    | POST_users payload =>
        match request_body validate_email payload with
        | inl es => refuse request es payload d
        | inr user =>
            if unstorable (users_id_seq d) (uc_name user) (uc_email user)
            then (inr (mkResponse 400
                         (JDict [("detail", JStr "Error creating user")])),
                  d, [OpInsert (uc_name user) (uc_email user); OpRollback])
            else if violates (users d) (created_row d user)
            then (inr (mkResponse 400
                         (JDict [("detail", JStr "Error creating user")])),
                  mkDb (users d) (users_id_seq d + 1),
                  [OpInsert (uc_name user) (uc_email user); OpRollback])
            else (match UserResponse_of_Row validate_email
                          (created_row d user) with
                  | Some j => inr (mkResponse 200 j)
                  | None => inl ResponseValidationError
                  end,
                  mkDb (users d ++ [created_row d user]) (users_id_seq d + 1),
                  [OpInsert (uc_name user) (uc_email user); OpCommit;
                   OpSelectById (users_id_seq d); OpRollback])
        end
    | GET_users =>
        (match UserResponse_of_list validate_email (users d) with
         | Some j => inr (mkResponse 200 j)
         | None => inl ResponseValidationError
         end, d, [OpSelectAll; OpRollback])
    | GET_users_id segment =>
        match path_id parse_int segment with
        | inl es => refuse request es None d
        | inr _ => (inl (Uncaught ArgumentError), d, [])
        end
    | PUT_users_id segment payload =>
        match path_id parse_int segment,
              request_body validate_email payload with
        | inr _, inr _ => (inl (Uncaught ArgumentError), d, [])
        | ri, rb => refuse request (errs ri ++ errs rb) payload d
        end
    | DELETE_users_id segment =>
        match path_id parse_int segment with
        | inl es => refuse request es None d
        | inr i =>
            match filter (has_id i) (users d) with
            | [] =>
                (inr (mkResponse 404
                        (JDict [("detail", JStr "User not found")])),
                 d, [OpSelectById i; OpRollback])
            | _ :: _ =>
                (inr (mkResponse 200
                        (JDict [("message",
                                 JStr "User deleted successfully")])),
                 mkDb (filter (fun r => negb (has_id i r)) (users d))
                      (users_id_seq d),
                 [OpSelectById i; OpDeleteById i; OpCommit])
            end
        end
    end.
Proof.
  destruct request as [payload| |segment|segment payload|segment];
    unfold routes.
  - destruct (request_body validate_email payload) as [es|user];
      [reflexivity|]. unfold respond_or_raise.
    destruct (unstorable _ _ _) eqn:Hu;
      [now rewrite (create_user_unstorable user d Hu)|].
    destruct (violates (users d) (created_row d user)) eqn:Hv.
    + now rewrite (create_user_conflict user d Hu Hv).
    + now rewrite (create_user_stored user d Hu Hv).
  - rewrite get_users_all. reflexivity.
  - destruct (path_id parse_int segment); reflexivity.
  - destruct (path_id parse_int segment);
      destruct (request_body validate_email payload); reflexivity.
  - destruct (path_id parse_int segment) as [es|i]; [reflexivity|].
    unfold respond_or_raise.
    destruct (filter (has_id i) (users d)) as [|r l] eqn:Hf.
    + now rewrite (delete_user_absent i d Hf).
    + rewrite delete_user_stored; [reflexivity | now rewrite Hf].
Qed.

End Outcomes.

(** Splits on every test that [routes_outcome] makes. *)
Ltac route_cases :=
  unfold refuse;
  repeat match goal with
    | |- context [request_body ?v ?p] =>
        destruct (request_body v p) as [?es|?user] eqn:?
    | |- context [path_id ?p ?s] =>
        destruct (path_id p s) as [?es|?i] eqn:?
    | |- context [unstorable ?i ?n ?e] =>
        destruct (unstorable i n e) eqn:?
    | |- context [violates ?rows ?u] => destruct (violates rows u) eqn:?
    | |- context [UserResponse_of_Row ?v ?r] =>
        destruct (UserResponse_of_Row v r) eqn:?
    | |- context [UserResponse_of_list ?v ?l] =>
        destruct (UserResponse_of_list v l) eqn:?
    | |- context [filter (has_id ?i) ?l] =>
        destruct (filter (has_id i) l) eqn:?
    | |- context [validation_exception_handler ?r ?x] =>
        let H := fresh "Hanswer" in
        destruct (validation_exception_handler r x) as [?e|?response] eqn:H;
        [|apply handler_status in H]
    end.

(** Splits a statement on [app] into the cases of [routes_outcome]. *)
Ltac by_route request :=
  rewrite ?app_routes; rewrite ?routes_outcome;
  destruct request as [payload| |segment|segment payload|segment];
  route_cases;
  unfold database_after, response_of, trace_of; simpl.

(** ** Invariants of the table *)

(** X1. The primary key holds across every request: if no two stored rows
    share an id before a request, none do after it. *)
Theorem app_keeps_unique_ids
  (validate_email : string -> option string) (parse_int : string -> option Z)
  (d : database) (request : Request) :
  NoDup (map id (users d)) ->
  NoDup (map id
           (users (database_after (app validate_email parse_int d request)))).
Proof.
  intros Hnd. by_route request; auto using column_unique_after_filter.
  all: rewrite map_app; apply NoDup_snoc; auto.
  all: match goal with H : violates _ _ = false |- _ =>
         apply violates_false in H; exact (proj1 H) end.
Qed.

Lemma app_keeps_unique_ids_witness :
  NoDup (map id
           (users
              (database_after
                 (service (mkDb [ann] 2) (POST_users (Some bob_payload)))))).
Proof.
  apply (app_keeps_unique_ids simple_email decimal_int (mkDb [ann] 2)
           (POST_users (Some bob_payload))).
  simpl. constructor; [intros [] | constructor].
Defined.

(** X2. The unique constraint on [email] holds across every request: if no two
    stored rows share an email before a request, none do after it. *)
Theorem app_keeps_unique_emails
  (validate_email : string -> option string) (parse_int : string -> option Z)
  (d : database) (request : Request) :
  NoDup (map email (users d)) ->
  NoDup (map email
           (users (database_after (app validate_email parse_int d request)))).
Proof.
  intros Hnd. by_route request; auto using column_unique_after_filter.
  all: rewrite map_app; apply NoDup_snoc; auto.
  all: match goal with H : violates _ _ = false |- _ =>
         apply violates_false in H; exact (proj2 H) end.
Qed.

Lemma app_keeps_unique_emails_witness :
  NoDup (map email
           (users
              (database_after
                 (service (mkDb [ann] 2) (POST_users (Some bob_payload)))))).
Proof.
  apply (app_keeps_unique_emails simple_email decimal_int (mkDb [ann] 2)
           (POST_users (Some bob_payload))).
  simpl. constructor; [intros [] | constructor].
Defined.

(** X3. Ids are not handed out twice: if every stored id is below the next
    value of the sequence before a request, it is so after it, and the
    sequence never goes back. *)
Theorem app_keeps_ids_below_sequence
  (validate_email : string -> option string) (parse_int : string -> option Z)
  (d : database) (request : Request) :
  Forall (fun r => id r < users_id_seq d) (users d) ->
  let d' := database_after (app validate_email parse_int d request) in
  Forall (fun r => id r < users_id_seq d') (users d')
  /\ users_id_seq d <= users_id_seq d'.
Proof.
  intros Hall. by_route request; split; try lia; auto.
  all: try (apply Forall_app; split; [|repeat constructor; simpl; lia]).
  all: try (eapply Forall_impl; [|exact Hall]; simpl; intros; lia).
  apply Forall_forall. intros r Hr. apply filter_In in Hr.
  rewrite Forall_forall in Hall. apply Hall. tauto.
Qed.

Lemma app_keeps_ids_below_sequence_witness :
  let d' := database_after (service (mkDb [ann] 2)
                              (POST_users (Some bob_payload))) in
  Forall (fun r => id r < users_id_seq d') (users d')
  /\ 2 <= users_id_seq d'.
Proof.
  apply (app_keeps_ids_below_sequence simple_email decimal_int (mkDb [ann] 2)
           (POST_users (Some bob_payload))).
  repeat constructor.
Defined.

(** ** What a request can and cannot do *)

(** X4. Every answer to a request that is matched to one of the five routes
    has status 200, 400, 404 or 500; in particular a validation failure is
    never answered 422. *)
Theorem app_status_codes
  (validate_email : string -> option string) (parse_int : string -> option Z)
  (d : database) (request : Request) :
  In (status_code (response_of (app validate_email parse_int d request)))
     [200; 400; 404; 500].
Proof.
  by_route request; try tauto.
  all: match goal with H : status_code _ = 400 |- _ => rewrite H end; tauto.
Qed.

(** X5. The stored rows change only in a request that commits. *)
Theorem rows_change_only_on_commit
  (validate_email : string -> option string) (parse_int : string -> option Z)
  (d : database) (request : Request) :
  ~ In OpCommit (trace_of (app validate_email parse_int d request)) ->
  users (database_after (app validate_email parse_int d request)) = users d.
Proof. by_route request; intros Hnot; try reflexivity; exfalso; tauto. Qed.

Lemma rows_change_only_on_commit_witness :
  users (database_after
           (service (mkDb [ann] 2)
              (POST_users (Some (create_payload "Bob" "ann@example.com")))))
  = [ann].
Proof.
  apply (rows_change_only_on_commit simple_email decimal_int (mkDb [ann] 2)
           (POST_users (Some (create_payload "Bob" "ann@example.com")))).
  simpl. intros [H | [H | []]]; discriminate.
Defined.

(** X6. No request leaves a transaction open: the last operation it sends,
    if it sends any, is a COMMIT or a ROLLBACK; and a request commits at
    most once. *)
Theorem request_closes_its_transaction
  (validate_email : string -> option string) (parse_int : string -> option Z)
  (d : database) (request : Request) :
  in_transaction (trace_of (app validate_email parse_int d request)) = false
  /\ (List.length
        (filter is_commit
           (trace_of (app validate_email parse_int d request))) <= 1)%nat.
Proof. by_route request; split; try reflexivity; lia. Qed.

(** X7. A create request never alters or removes a stored row: afterwards the
    table holds the rows it held before and at most one more. *)
Theorem create_keeps_stored_rows
  (validate_email : string -> option string) (parse_int : string -> option Z)
  (d : database) (payload : option json) :
  exists added,
    Permutation
      (users (database_after
                (app validate_email parse_int d (POST_users payload))))
      (added ++ users d)
    /\ (List.length added <= 1)%nat.
Proof.
  rewrite app_routes, routes_outcome. unfold database_after, refuse.
  destruct (request_body validate_email payload) as [es|user].
  - exists []. split; [|simpl; lia].
    destruct (validation_exception_handler _ _); apply Permutation_refl.
  - destruct (unstorable _ _ _);
      [exists []; split; [apply Permutation_refl | simpl; lia]|].
    destruct (violates _ _).
    + exists []. split; [apply Permutation_refl | simpl; lia].
    + exists [created_row d user]. split; [|simpl; lia].
      apply Permutation_app_comm.
Qed.

(** ** Listing the users *)

(** X8. When every stored email is a normal form of the syntax check, GET
    /api/v1/users/ answers 200 with one object per stored row, in table
    order, and reads only: the database is left as it was. *)
Theorem get_users_lists_every_row
  (validate_email : string -> option string) (parse_int : string -> option Z)
  (d : database) :
  Forall (fun r => validate_email (email r) = Some (email r)) (users d) ->
  app validate_email parse_int d GET_users =
    (mkResponse 200 (JList (map user_json (users d))), d,
     [OpSelectAll; OpRollback]).
Proof.
  intros Hvalid. rewrite app_routes, routes_outcome.
  unfold UserResponse_of_list.
  rewrite (all_some_map (UserResponse_of_Row validate_email) user_json).
  - reflexivity.
  - eapply Forall_impl; [|exact Hvalid]. intros r Hr.
    unfold UserResponse_of_Row. now rewrite Hr.
Qed.

Lemma get_users_lists_every_row_witness :
  service (mkDb [ann; mkUser 2 "" "bob@example.com"] 3) GET_users =
    (mkResponse 200
       (JList [user_json ann; user_json (mkUser 2 "" "bob@example.com")]),
     mkDb [ann; mkUser 2 "" "bob@example.com"] 3, [OpSelectAll; OpRollback]).
Proof.
  apply (get_users_lists_every_row simple_email decimal_int
           (mkDb [ann; mkUser 2 "" "bob@example.com"] 3)).
  repeat constructor.
Defined.

(** X9. One stored row whose email the syntax check refuses makes the whole
    listing fail: the answer is 500, whatever the other rows are. *)
Theorem get_users_one_bad_row
  (validate_email : string -> option string) (parse_int : string -> option Z)
  (d : database) (r : User) :
  In r (users d) ->
  validate_email (email r) = None ->
  app validate_email parse_int d GET_users =
    (internal_server_error, d, [OpSelectAll; OpRollback]).
Proof.
  intros Hin Hbad. rewrite app_routes, routes_outcome.
  unfold UserResponse_of_list.
  rewrite (all_some_none (UserResponse_of_Row validate_email) _ r Hin).
  - reflexivity.
  - unfold UserResponse_of_Row. now rewrite Hbad.
Qed.

Lemma get_users_one_bad_row_witness :
  service (mkDb [ann; mkUser 2 "Bob" "bob"] 3) GET_users =
    (internal_server_error, mkDb [ann; mkUser 2 "Bob" "bob"] 3,
     [OpSelectAll; OpRollback]).
Proof.
  apply (get_users_one_bad_row simple_email decimal_int
           (mkDb [ann; mkUser 2 "Bob" "bob"] 3) (mkUser 2 "Bob" "bob")).
  - simpl. right. left. reflexivity.
  - reflexivity.
Defined.

(** ** Creating a user *)








(** ** Deleting a user *)

(** X13. DELETE on an id within the 32-bit range that no row has answers
    404 after a single SELECT: nothing is written and the database is left
    as it was. *)
Theorem delete_user_unknown_id
  (validate_email : string -> option string) (parse_int : string -> option Z)
  (d : database) (segment : string) (i : Z) :
  parse_int segment = Some i ->
  int32_min <= i <= int32_max ->
  ~ In i (map id (users d)) ->
  app validate_email parse_int d (DELETE_users_id segment) =
    (mkResponse 404 (JDict [("detail", JStr "User not found")]), d,
     [OpSelectById i; OpRollback]).
Proof.
  intros Hi _ Hnot. apply app_delete_absent; [exact Hi|].
  now apply has_id_none.
Qed.

Lemma delete_user_unknown_id_witness :
  service (mkDb [ann] 2) (DELETE_users_id "7") =
    (mkResponse 404 (JDict [("detail", JStr "User not found")]),
     mkDb [ann] 2, [OpSelectById 7; OpRollback]).
Proof.
  apply (delete_user_unknown_id simple_email decimal_int (mkDb [ann] 2)
           "7" 7); [reflexivity | unfold int32_min, int32_max; lia |].
  simpl. intros [H | []]. discriminate.
Defined.

(** X14. DELETE on a stored id answers 200, commits, and removes the rows with
    that id and no other: a row is stored afterwards exactly when it was
    stored before and has another id.  The sequence is not touched. *)
Theorem delete_user_removes_only_that_id
  (validate_email : string -> option string) (parse_int : string -> option Z)
  (d : database) (segment : string) (i : Z) :
  parse_int segment = Some i ->
  In i (map id (users d)) ->
  let out := app validate_email parse_int d (DELETE_users_id segment) in
  response_of out =
    mkResponse 200 (JDict [("message", JStr "User deleted successfully")])
  /\ trace_of out = [OpSelectById i; OpDeleteById i; OpCommit]
  /\ (forall r, In r (users (database_after out)) <->
                In r (users d) /\ id r <> i)
  /\ users_id_seq (database_after out) = users_id_seq d.
Proof.
  intros Hi Hin out. unfold out. rewrite app_routes, routes_outcome.
  unfold path_id. rewrite Hi.
  destruct (filter (has_id i) (users d)) as [|r0 l] eqn:Hf.
  - apply has_id_none in Hf. contradiction.
  - unfold response_of, trace_of, database_after. simpl.
    split; [reflexivity|]. split; [reflexivity|]. split; [|reflexivity].
    intros r. rewrite filter_In. unfold has_id.
    rewrite negb_true_iff, Z.eqb_neq. tauto.
Qed.

Lemma delete_user_removes_only_that_id_witness :
  let out := service (mkDb [ann; mkUser 2 "Bob" "bob@example.com"] 3)
               (DELETE_users_id "1") in
  response_of out =
    mkResponse 200 (JDict [("message", JStr "User deleted successfully")])
  /\ trace_of out = [OpSelectById 1; OpDeleteById 1; OpCommit]
  /\ (forall r, In r (users (database_after out)) <->
                In r [ann; mkUser 2 "Bob" "bob@example.com"] /\ id r <> 1)
  /\ users_id_seq (database_after out) = 3.
Proof.
  apply (delete_user_removes_only_that_id simple_email decimal_int
           (mkDb [ann; mkUser 2 "Bob" "bob@example.com"] 3) "1" 1);
    [reflexivity|].
  simpl. left. reflexivity.
Defined.

(** X15. A delete is final: after a delete that succeeded, the same request is
    answered 404 and changes nothing. *)
Theorem delete_user_twice
  (validate_email : string -> option string) (parse_int : string -> option Z)
  (d : database) (segment : string) (i : Z) :
  parse_int segment = Some i ->
  In i (map id (users d)) ->
  let d' :=
    database_after
      (app validate_email parse_int d (DELETE_users_id segment)) in
  app validate_email parse_int d' (DELETE_users_id segment) =
    (mkResponse 404 (JDict [("detail", JStr "User not found")]), d',
     [OpSelectById i; OpRollback]).
Proof.
  intros Hi Hin d'. apply app_delete_absent; [exact Hi|].
  unfold d'. rewrite app_routes, routes_outcome. unfold path_id. rewrite Hi.
  destruct (filter (has_id i) (users d)) as [|r0 l] eqn:Hf.
  - apply has_id_none in Hf. contradiction.
  - unfold database_after. simpl. apply deleted_id_gone.
Qed.

Lemma delete_user_twice_witness :
  let d' := database_after (service (mkDb [ann] 2) (DELETE_users_id "1")) in
  service d' (DELETE_users_id "1") =
    (mkResponse 404 (JDict [("detail", JStr "User not found")]), d',
     [OpSelectById 1; OpRollback]).
Proof.
  apply (delete_user_twice simple_email decimal_int (mkDb [ann] 2) "1" 1);
    [reflexivity|].
  simpl. left. reflexivity.
Defined.



(** ** Reading and updating by id *)

(** X17. GET /api/v1/users/{id} never returns a row and never answers 404: the
    answer is 400 when the segment is not an integer and 500 when it is,
    whatever the table holds; nothing is sent to the database. *)
Theorem get_user_never_reads
  (validate_email : string -> option string) (parse_int : string -> option Z)
  (d : database) (segment : string) :
  let out := app validate_email parse_int d (GET_users_id segment) in
  status_code (response_of out) =
    match parse_int segment with Some _ => 500 | None => 400 end
  /\ database_after out = d
  /\ trace_of out = [].
Proof.
  intros out. unfold out. rewrite app_routes, routes_outcome.
  unfold path_id. destruct (parse_int segment); repeat split.
Qed.

(** X18. PUT /api/v1/users/{id} never writes: whether the id and the payload
    are valid or not, nothing is sent to the database, which stays as it
    was, and the answer is 400 or 500, never 200 or 404. *)
Theorem update_user_never_writes
  (validate_email : string -> option string) (parse_int : string -> option Z)
  (d : database) (segment : string) (payload : option json) :
  let out := app validate_email parse_int d (PUT_users_id segment payload) in
  (status_code (response_of out) = 400 \/ status_code (response_of out) = 500)
  /\ database_after out = d
  /\ trace_of out = [].
Proof.
  intros out. unfold out. rewrite app_routes, routes_outcome.
  route_cases; unfold response_of, database_after, trace_of; simpl;
    repeat split; auto.
Qed.

(** ** Requests that fail validation, in general *)



(** X23. A request with a validation error never reaches the database,
    whatever its body holds: no handler is run, nothing is sent, the
    database stays as it was, and the answer is 400 or 500. *)
Theorem invalid_request_never_reaches_storage
  (validate_email : string -> option string) (parse_int : string -> option Z)
  (d : database) (request : Request) :
  request_errors validate_email parse_int request <> [] ->
  let out := app validate_email parse_int d request in
  database_after out = d
  /\ trace_of out = []
  /\ (status_code (response_of out) = 400
      \/ status_code (response_of out) = 500).
Proof.
  intros Herr out. unfold out. rewrite (app_refuses _ _ d request Herr).
  unfold database_after, trace_of, response_of. simpl.
  split; [reflexivity|]. split; [reflexivity|].
  destruct (validation_exception_handler _ _) as [e|response] eqn:Hanswer.
  - now right.
  - left. exact (handler_status _ _ _ Hanswer).
Qed.

Lemma invalid_request_never_reaches_storage_witness :
  let out :=
    service (mkDb [ann] 2)
      (POST_users (Some (JDict [("name", JStr "Bob"); ("email", JStr "bob");
                                ("x", infinity)]))) in
  database_after out = mkDb [ann] 2
  /\ trace_of out = []
  /\ (status_code (response_of out) = 400
      \/ status_code (response_of out) = 500).
Proof.
  apply (invalid_request_never_reaches_storage simple_email decimal_int
           (mkDb [ann] 2)
           (POST_users
              (Some (JDict [("name", JStr "Bob"); ("email", JStr "bob");
                            ("x", infinity)])))).
  simpl. discriminate.
Defined.





(** ** The middleware stack *)

Lemma scan_allowed_hosts (host : string) :
  scan_hosts host allowed_hosts false =
    (String.eqb host "127.0.0.1" || String.eqb host "localhost", false).
Proof.
  unfold allowed_hosts, scan_hosts, wildcard_match.
  rewrite !orb_false_r.
  destruct (String.eqb host "127.0.0.1"); [reflexivity|].
  destruct (String.eqb host "localhost"); reflexivity.
Qed.

(** X20. For a request to 127.0.0.1 or localhost, on any port, the stack gives
    the answer and the database of the application.  The request line is
    logged before the route runs; the status line is logged after it,
    except when the answer is the 500 of an uncaught exception: then the
    request line is all that is logged. *)
Theorem server_logs_around_the_route
  (validate_email : string -> option string) (parse_int : string -> option Z)
  (request : HttpRequest) (w : Server) :
  request_host request = "127.0.0.1" \/ request_host request = "localhost" ->
  let out := app validate_email parse_int (store w) (http_route request) in
  server validate_email parse_int request w =
    (response_of out,
     mkServer (database_after out)
       (info_records w
          ++ request_line request
          :: (if status_code (response_of out) =? 500 then []
              else [status_line (response_of out)]))
       (sent w ++ trace_of out)).
Proof.
  intros Hhost out. unfold out, server, trusted_host.
  rewrite scan_allowed_hosts.
  replace (String.eqb (request_host request) "127.0.0.1"
           || String.eqb (request_host request) "localhost") with true
    by (destruct Hhost as [-> | ->]; reflexivity).
  unfold dispatch, abind, logging_info, aret, call_routes.
  cbn [store info_records sent].
  fold (request_line request).
  rewrite app_routes, routes_outcome.
  destruct (http_route request) as [payload| |segment|segment payload|segment];
    route_cases;
    unfold response_of, database_after, trace_of, status_line;
    cbn -[str_int String.append]; rewrite <- ?app_assoc;
    try match goal with H : status_code _ = 400 |- _ => rewrite H end;
    reflexivity.
Qed.

Lemma server_logs_around_the_route_witness :
  let request :=
    mkHttp (Some "localhost:8000") "http://localhost:8000/api/v1/users/1"
           (GET_users_id "1") in
  let out := service (mkDb [ann] 2) (GET_users_id "1") in
  local_server request (mkServer (mkDb [ann] 2) [] []) =
    (response_of out,
     mkServer (database_after out)
       ([] ++ request_line request
           :: (if status_code (response_of out) =? 500 then []
               else [status_line (response_of out)]))
       ([] ++ trace_of out)).
Proof.
  apply (server_logs_around_the_route simple_email decimal_int
           (mkHttp (Some "localhost:8000")
                   "http://localhost:8000/api/v1/users/1" (GET_users_id "1"))
           (mkServer (mkDb [ann] 2) [] [])).
  right. reflexivity.
Defined.

(** X21. For a request that is matched to one of the five routes, whatever
    its [Host] header, the stack answers with status 200, 400, 404 or 500:
    with this allow-list the trusted-host check never redirects. *)
Theorem server_status_codes
  (validate_email : string -> option string) (parse_int : string -> option Z)
  (request : HttpRequest) (w : Server) :
  In (status_code (fst (server validate_email parse_int request w)))
     [200; 400; 404; 500].
Proof.
  unfold server, trusted_host. rewrite scan_allowed_hosts.
  destruct (String.eqb (request_host request) "127.0.0.1"
            || String.eqb (request_host request) "localhost");
    [|simpl; tauto].
  unfold dispatch, abind, logging_info, aret, call_routes.
  cbn [store info_records sent]. rewrite routes_outcome.
  destruct (http_route request) as [payload| |segment|segment payload|segment];
    route_cases; cbn -[str_int String.append];
    try match goal with H : status_code _ = 400 |- _ => rewrite H end;
    tauto.
Qed.
